(** * NLPAnalyzer (src/services/nlp_analyzer.py): a shallow embedding

    The orchestrator coordinates a classifier and an embedding generator.
    Python exceptions are modelled by an [outcome] (a value or a raised
    [exn]); the calls made to the two collaborators and the
    threshold-dependent log lines are recorded in a trace, so a
    computation of type [M A] is a pair of an outcome and the list of
    events it produced, in order.

    A floating-point score is modelled by its exact value, a rational [Q]:
    the code only compares scores, and comparing doubles is exact. The one
    float computation of the code, the average of [get_analysis_summary],
    is carried out in IEEE 754 binary64, the Standard Library's
    [SpecFloat]. *)

From Stdlib Require Import String List ZArith QArith Qround Qabs Lqa.
From Stdlib Require SpecFloat.
From stdpp Require Import base gmap strings list.

Import ListNotations.
Open Scope Q_scope.

(** ** Exceptions *)

(** [InferenceError] of utils.error_handler, carrying the clause id of its
    [details] dictionary; [ValueError] as raised by
    [set_confidence_threshold]; any other [Exception] a collaborator may
    raise. *)
Inductive exn :=
| InferenceError (message : string) (details_clause_id : string)
| ValueError (message : string)
| OtherException (message : string).

(** [str(e)] *)
Definition exn_str (e : exn) : string :=
  match e with
  | InferenceError m _ | ValueError m | OtherException m => m
  end.

Inductive outcome (A : Type) :=
| Ret (a : A)
| Raise (e : exn).
Arguments Ret {A} a.
Arguments Raise {A} e.

(** ** Data model *)

Record Clause := mkClause { clause_id : string; text : string }.

Definition vector := list Q.

(** [(clause_type, confidence, alternatives)] as returned by [predict]. *)
Definition Prediction := (string * Q * list (string * Q))%type.

(** Modelled from the spec: models/clause_analysis.py (the ClauseAnalysis
    record) is not among the sources; the spec describes it as a plain data
    record whose fields are not validated at construction, with
    [embeddings] either a vector or the absence marker [None]. *)
Record ClauseAnalysis := mkClauseAnalysis {
  ca_clause_id : string;
  clause_text : string;
  clause_type : string;
  confidence_score : Q;
  embeddings : option vector;
  alternative_types : list (string * Q)
}.

(** The two collaborators, as black boxes that answer or raise. *)
Record LegalBERTClassifier := mkClassifier {
  predict : string -> outcome Prediction
}.

Record EmbeddingGenerator := mkEmbeddingGenerator {
  generate_embedding : string -> outcome vector;
  generate_embeddings_batch :
    list string -> bool (* use_cache *) -> Z (* batch_size *) ->
    outcome (list (option vector))
}.

Record NLPAnalyzer := mkNLPAnalyzer {
  classifier : LegalBERTClassifier;
  embedding_generator : EmbeddingGenerator;
  confidence_threshold : Q
}.

(** ** The exception and trace monad *)

Inductive event :=
| Call_predict (t : string)
| Call_generate_embedding (t : string)
| Call_generate_embeddings_batch (ts : list string) (use_cache : bool)
    (batch_size : Z)
| Warn_low_confidence (cid : string) (confidence : Q)
| Info_batch_complete (analyzed low_confidence classification_errors
    embedding_errors : nat).

Definition M (A : Type) := (outcome A * list event)%type.

Definition ret {A} (a : A) : M A := (Ret a, []).
Definition raise {A} (e : exn) : M A := (Raise e, []).
Definition emit (ev : event) : M unit := (Ret tt, [ev]).

Definition bind {A B} (m : M A) (f : A -> M B) : M B :=
  match m with
  | (Ret a, t) => let '(r, t') := f a in (r, t ++ t')
  | (Raise e, t) => (Raise e, t)
  end.

(** [try: m except Exception as e: h(e)] *)
Definition try_except {A} (m : M A) (h : exn -> M A) : M A :=
  match m with
  | (Ret a, t) => (Ret a, t)
  | (Raise e, t) => let '(r, t') := h e in (r, t ++ t')
  end.

Notation "x <- m ;; k" := (bind m (fun x => k))
  (at level 100, m at next level, right associativity).
Notation "m ;; k" := (bind m (fun _ => k))
  (at level 100, right associativity).

(** Python's [a < b] on scores. *)
Definition Qltb (a b : Q) : bool := negb (Qle_bool b a).

(** ** Collaborator calls *)

Definition call_predict (self : NLPAnalyzer) (t : string) : M Prediction :=
  (predict (classifier self) t, [Call_predict t]).

Definition call_generate_embedding (self : NLPAnalyzer) (t : string)
  : M vector :=
  (generate_embedding (embedding_generator self) t,
   [Call_generate_embedding t]).

Definition call_generate_embeddings_batch (self : NLPAnalyzer)
    (ts : list string) (use_cache : bool) (batch_size : Z)
  : M (list (option vector)) :=
  (generate_embeddings_batch (embedding_generator self) ts use_cache batch_size,
   [Call_generate_embeddings_batch ts use_cache batch_size]).

(** [ClauseAnalysis(...)]: see the record above. *)
Definition ClauseAnalysis_new (cid ctext ctype : string) (conf : Q)
    (emb : option vector) (alts : list (string * Q)) : M ClauseAnalysis :=
  ret (mkClauseAnalysis cid ctext ctype conf emb alts).

(** ** [_create_fallback_analysis] *)
Definition create_fallback_analysis (c : Clause) (error_msg : string)
  : M ClauseAnalysis :=
  ClauseAnalysis_new (clause_id c) (text c) "Other" 0 None [("Other", 0)].

(** ** [analyze_clause] *)
Definition analyze_clause (self : NLPAnalyzer) (c : Clause)
  : M ClauseAnalysis :=
  try_except
    (p <- try_except (call_predict self (text c))
            (fun e => raise (InferenceError
                       ("Failed to classify clause: " ++ exn_str e)
                       (clause_id c))) ;;
     let '(ctype, conf, alts) := p in
     emb <- try_except (v <- call_generate_embedding self (text c) ;; ret (Some v))
              (fun _ => ret None) ;;
     (if Qltb conf (confidence_threshold self)
      then emit (Warn_low_confidence (clause_id c) conf) else ret tt) ;;
     ClauseAnalysis_new (clause_id c) (text c) ctype conf emb alts)
    (fun e => match e with
              | InferenceError _ _ => raise e
              | _ => create_fallback_analysis c (exn_str e)
              end).

(** ** [analyze_clauses] *)

(** The substitute of Stage 1 for a clause whose classification raised. *)
Definition classification_substitute : Prediction :=
  ("Other", 1#2, [("Other", 1#2)]).

(** Step 1: the [for clause in clauses] loop, returning [classifications]
    and the [classification_errors] counter. *)
Fixpoint classify_each (self : NLPAnalyzer) (clauses : list Clause)
  : M (list Prediction * nat) :=
  match clauses with
  | [] => ret ([], 0%nat)
  | c :: cs =>
      r <- try_except
             (p <- call_predict self (text c) ;;
              let '(_, conf, _) := p in
              (if Qltb conf (confidence_threshold self)
               then emit (Warn_low_confidence (clause_id c) conf) else ret tt) ;;
              ret (p, 0%nat))
             (fun _ => ret (classification_substitute, 1%nat)) ;;
      rest <- classify_each self cs ;;
      ret (fst r :: fst rest, (snd r + snd rest)%nat)
  end.

(** Step 2, fallback: the per-clause [generate_embedding] loop, returning
    [embeddings] and the [embedding_errors] counter. *)
Fixpoint embed_each (self : NLPAnalyzer) (clauses : list Clause)
  : M (list (option vector) * nat) :=
  match clauses with
  | [] => ret ([], 0%nat)
  | c :: cs =>
      r <- try_except
             (emb <- call_generate_embedding self (text c) ;; ret (Some emb, 0%nat))
             (fun _ => ret (None, 1%nat)) ;;
      rest <- embed_each self cs ;;
      ret (fst r :: fst rest, (snd r + snd rest)%nat)
  end.

(** Step 2: one batched call, falling back to [embed_each] if it raises. *)
Definition embed_stage (self : NLPAnalyzer) (clauses : list Clause)
    (batch_size : Z) : M (list (option vector) * nat) :=
  try_except
    (es <- call_generate_embeddings_batch self (map text clauses) true batch_size ;;
     ret (es, 0%nat))
    (fun _ => embed_each self clauses).

(** Step 3: [for clause, (t, conf, alts), embedding in zip(...)]; [zip]
    stops at the shortest of the three lists. *)
Fixpoint combine_results (clauses : list Clause) (classifications : list Prediction)
    (embs : list (option vector)) : M (list ClauseAnalysis) :=
  match clauses, classifications, embs with
  | c :: cs, (ctype, conf, alts) :: ps, emb :: es =>
      a <- try_except
             (ClauseAnalysis_new (clause_id c) (text c) ctype conf emb alts)
             (fun e => create_fallback_analysis c (exn_str e)) ;;
      rest <- combine_results cs ps es ;;
      ret (a :: rest)
  | _, _, _ => ret []
  end.

(** [sum(1 for a in analyses if a.confidence_score < threshold)] *)
Definition count_low_confidence (thr : Q) (analyses : list ClauseAnalysis) : nat :=
  fold_left (fun n a => if Qltb (confidence_score a) thr then S n else n)
    analyses 0%nat.

Fixpoint mapM {A B} (f : A -> M B) (l : list A) : M (list B) :=
  match l with
  | [] => ret []
  | x :: xs => y <- f x ;; ys <- mapM f xs ;; ret (y :: ys)
  end.

(** Steps 1 to 3 and the closing log line, for a non-empty batch. *)
Definition analyze_clauses_steps (self : NLPAnalyzer) (clauses : list Clause)
    (batch_size : Z) : M (list ClauseAnalysis) :=
  cl <- classify_each self clauses ;;
  let '(classifications, classification_errors) := cl in
  em <- embed_stage self clauses batch_size ;;
  let '(embs, embedding_errors) := em in
  analyses <- combine_results clauses classifications embs ;;
  emit (Info_batch_complete (length analyses)
          (count_low_confidence (confidence_threshold self) analyses)
          classification_errors embedding_errors) ;;
  ret analyses.

Definition analyze_clauses (self : NLPAnalyzer) (clauses : list Clause)
    (batch_size : Z) : M (list ClauseAnalysis) :=
  try_except
    (match clauses with
     | [] => ret []
     | _ => analyze_clauses_steps self clauses batch_size
     end)
    (fun e => mapM (fun c => create_fallback_analysis c (exn_str e)) clauses).

(** ** Triage utilities *)

(** [[a for a in analyses if a.confidence_score < self.confidence_threshold]] *)
Definition get_low_confidence_clauses (self : NLPAnalyzer)
    (analyses : list ClauseAnalysis) : list ClauseAnalysis :=
  List.filter (fun a => Qltb (confidence_score a) (confidence_threshold self))
    analyses.

(** [[a for a in analyses if a.clause_type == clause_type]] *)
Definition get_clauses_by_type (self : NLPAnalyzer)
    (analyses : list ClauseAnalysis) (ctype : string) : list ClauseAnalysis :=
  List.filter (fun a => String.eqb (clause_type a) ctype) analyses.

(** [set_confidence_threshold], in state-passing style: the analyzer after
    the call is returned next to the outcome. *)
Definition set_confidence_threshold (self : NLPAnalyzer) (threshold : Q)
  : outcome unit * NLPAnalyzer :=
  if negb (Qle_bool 0 threshold && Qle_bool threshold 1)
  then (Raise (ValueError "Confidence threshold must be between 0.0 and 1.0"),
        self)
  else (Ret tt, mkNLPAnalyzer (classifier self) (embedding_generator self)
                  threshold).

(** ** [get_analysis_summary] *)

(** The integer nearest to [y], ties to the even one. *)
Definition round_half_even (y : Q) : Z :=
  let f := Qfloor y in
  let d := y - inject_Z f in
  if Qltb d (1#2) then f
  else if Qltb (1#2) d then (f + 1)%Z
  else if Z.even f then f else (f + 1)%Z.

(** A rational rounded to 3 decimals: the nearest multiple of 0.001, ties
    to the even multiple. *)
Definition round3 (x : Q) : Q := round_half_even (x * 1000) # 1000.

(** Python's [float]: IEEE 754 binary64, that is [SpecFloat] with 53 bits
    of precision and the exponent bound 1024; [+] and [/] round to nearest,
    ties to even. *)
Definition float := SpecFloat.spec_float.
Definition float_prec : Z := 53.
Definition float_emax : Z := 1024.

Definition fadd (x y : float) : float := SpecFloat.SFadd float_prec float_emax x y.
Definition fdiv (x y : float) : float := SpecFloat.SFdiv float_prec float_emax x y.

(** [0.0] *)
Definition fzero : float := SpecFloat.S754_zero false.

(** The exact value of a finite float; [0] for the infinities and NaN. *)
Definition float_value (x : float) : Q :=
  match x with
  | SpecFloat.S754_finite s m e =>
      let v := match e with
               | Zneg p => Zpos m # Pos.pow 2 p
               | _ => inject_Z (Zpos m * 2 ^ e)
               end in
      if s then - v else v
  | _ => 0
  end.

(** The double nearest to a rational, ties to even: [m / d] divided in
    binary64 from the exact operands [m * 2^0] and [d * 2^0]. A score,
    kept as the exact value of its double, gives that double back; an
    integer gives Python's [float(n)]. *)
Definition float_of_Q (q : Q) : float :=
  match Qnum q with
  | Z0 => fzero
  | Zpos p => fdiv (SpecFloat.S754_finite false p 0) (SpecFloat.S754_finite false (Qden q) 0)
  | Zneg p => fdiv (SpecFloat.S754_finite true p 0) (SpecFloat.S754_finite false (Qden q) 0)
  end.

(** Python's [round(x, 3)] on a float: NaN, the infinities and the zeros
    are returned as they are; a finite [x] becomes the double nearest to
    the multiple of 0.001 nearest to the exact value of [x] (ties to the
    even multiple), a zero with the sign of [x] when that multiple is 0. *)
Definition py_round3 (x : float) : float :=
  match x with
  | SpecFloat.S754_finite s _ _ =>
      match round_half_even (float_value x * 1000) with
      | Z0 => SpecFloat.S754_zero s
      | k => float_of_Q (k # 1000)
      end
  | _ => x
  end.

Record Summary := mkSummary {
  total_clauses : nat;
  avg_confidence : float;
  low_confidence_count : nat;
  clause_type_distribution : gmap string nat
}.

(** [type_distribution[t] = type_distribution.get(t, 0) + 1] over the list *)
Definition type_distribution_step (m : gmap string nat) (a : ClauseAnalysis)
  : gmap string nat :=
  <[clause_type a := (default 0 (m !! clause_type a) + 1)%nat]> m.

Definition type_distribution_of (analyses : list ClauseAnalysis)
  : gmap string nat :=
  fold_left type_distribution_step analyses ∅.

(** Python's [sum(...)] over floats: [0 + x0], then each further score
    added in turn, every addition rounded to binary64 (the summation of
    CPython up to 3.11; later versions compensate the rounding errors). *)
Definition py_fsum (xs : list float) : float := fold_left fadd xs fzero.

Definition get_analysis_summary (self : NLPAnalyzer)
    (analyses : list ClauseAnalysis) : Summary :=
  match analyses with
  | [] => mkSummary 0 fzero 0 ∅
  | _ =>
      let total := length analyses in
      let avg := fdiv (py_fsum (map (fun a => float_of_Q (confidence_score a)) analyses))
                   (float_of_Q (inject_Z (Z.of_nat total))) in
      mkSummary total (py_round3 avg)
        (count_low_confidence (confidence_threshold self) analyses)
        (type_distribution_of analyses)
  end.


(** ** Helper definitions for the statements *)

(** The analyzer with its threshold replaced. *)
Definition with_threshold (self : NLPAnalyzer) (thr : Q) : NLPAnalyzer :=
  mkNLPAnalyzer (classifier self) (embedding_generator self) thr.

Definition predict_fails (self : NLPAnalyzer) (c : Clause) : bool :=
  match predict (classifier self) (text c) with
  | Raise _ => true
  | Ret _ => false
  end.

Definition classification_of (self : NLPAnalyzer) (c : Clause) : Prediction :=
  match predict (classifier self) (text c) with
  | Ret p => p
  | Raise _ => classification_substitute
  end.

Definition embedding_of (self : NLPAnalyzer) (c : Clause) : option vector :=
  match generate_embedding (embedding_generator self) (text c) with
  | Ret v => Some v
  | Raise _ => None
  end.

Definition embed_fails (self : NLPAnalyzer) (c : Clause) : bool :=
  match generate_embedding (embedding_generator self) (text c) with
  | Raise _ => true
  | Ret _ => false
  end.

Definition assemble (c : Clause) (p : Prediction) (e : option vector)
  : ClauseAnalysis :=
  let '(ctype, conf, alts) := p in
  mkClauseAnalysis (clause_id c) (text c) ctype conf e alts.

Fixpoint assemble_all (cs : list Clause) (ps : list Prediction)
    (es : list (option vector)) : list ClauseAnalysis :=
  match cs, ps, es with
  | c :: cs', p :: ps', e :: es' => assemble c p e :: assemble_all cs' ps' es'
  | _, _, _ => []
  end.

(** The embedding stage returns the batch result, or the per-clause results
    when the batched call raises. *)
Definition embed_stage_value (self : NLPAnalyzer) (cs : list Clause) (bs : Z)
  : list (option vector) * nat :=
  match generate_embeddings_batch (embedding_generator self) (map text cs) true bs with
  | Ret es => (es, 0%nat)
  | Raise _ => (map (embedding_of self) cs,
                length (List.filter (embed_fails self) cs))
  end.


(** The spec's arithmetic mean of the confidence scores. *)
Definition Qsum (xs : list Q) : Q := fold_right Qplus 0 xs.

Definition mean (analyses : list ClauseAnalysis) : Q :=
  Qsum (map confidence_score analyses) / inject_Z (Z.of_nat (length analyses)).

(** The code's average before rounding: the float sum of the scores
    divided, in binary64, by their number. *)
Definition float_mean (analyses : list ClauseAnalysis) : float :=
  fdiv (py_fsum (map (fun a => float_of_Q (confidence_score a)) analyses))
    (float_of_Q (inject_Z (Z.of_nat (length analyses)))).

(** Number of records of a given type. *)
Definition count_type (t : string) (analyses : list ClauseAnalysis) : nat :=
  length (List.filter (fun a => String.eqb (clause_type a) t) analyses).

(** The sum of the counts of a type distribution. *)
Definition dist_total (m : gmap string nat) : nat :=
  map_fold (fun _ v acc => (v + acc)%nat) 0%nat m.

(** The events [analyze_clauses] produces for one clause in Step 1. *)
Definition classify_events (self : NLPAnalyzer) (c : Clause) : list event :=
  Call_predict (text c) ::
  match predict (classifier self) (text c) with
  | Ret (_, conf, _) =>
      if Qltb conf (confidence_threshold self)
      then [Warn_low_confidence (clause_id c) conf] else []
  | Raise _ => []
  end.

(** Four records with confidences 0.9, 0.5, 0.8 and 0.3. *)
Definition ex_a1 := mkClauseAnalysis "c1" "t1" "NDA" (9#10) None [].
Definition ex_a2 := mkClauseAnalysis "c2" "t2" "NDA" (5#10) None [].
Definition ex_a3 := mkClauseAnalysis "c3" "t3" "NDA" (8#10) None [].
Definition ex_a4 := mkClauseAnalysis "c4" "t4" "NDA" (3#10) None [].

(** A concrete analyzer: the classifier fails on the text "boilerplate"
    and answers the healthy-scenario triple on any other text; every
    embedding call succeeds. *)
Definition ex_prediction : Prediction :=
  ("Confidentiality", 92#100, [("Confidentiality", 92#100); ("NDA", 5#100)]).

Definition ex_vector : vector := [1#2; 1#4].

Definition ex_analyzer : NLPAnalyzer :=
  mkNLPAnalyzer
    (mkClassifier (fun t => if String.eqb t "boilerplate"
                            then Raise (OtherException "model failure")
                            else Ret ex_prediction))
    (mkEmbeddingGenerator (fun _ => Ret ex_vector)
       (fun ts _ _ => Ret (map (fun _ => Some ex_vector) ts)))
    (3#4).

Definition ex_clauses : list Clause :=
  [mkClause "1" "keep secrets"; mkClause "2" "boilerplate";
   mkClause "3" "pay on time"; mkClause "4" "terminate"; mkClause "5" "indemnify"].

(** Four records scored with the doubles 0.0, 0.0, 0.01 and 0.02, each
    kept as its exact value. *)
Definition ce_score (q : Q) : Q := float_value (float_of_Q q).

Definition ce_analyses : list ClauseAnalysis :=
  [mkClauseAnalysis "c1" "t1" "NDA" (ce_score 0) None [];
   mkClauseAnalysis "c2" "t2" "NDA" (ce_score 0) None [];
   mkClauseAnalysis "c3" "t3" "NDA" (ce_score (1#100)) None [];
   mkClauseAnalysis "c4" "t4" "NDA" (ce_score (2#100)) None []].

(** ** Lemmas on the monad *)

Section MonadFacts.
Context {A B : Type}.

Lemma fst_bind_ret (m : M A) (f : A -> M B) a :
  fst m = Ret a -> fst (bind m f) = fst (f a).
Proof. destruct m as [[x|e] t]; simpl; intros H; inversion H; subst.
  destruct (f a); reflexivity. Qed.

Lemma snd_bind_ret (m : M A) (f : A -> M B) a :
  fst m = Ret a -> snd (bind m f) = snd m ++ snd (f a).
Proof. destruct m as [[x|e] t]; simpl; intros H; inversion H; subst.
  destruct (f a); reflexivity. Qed.

Lemma fst_try_ret (m : M A) h a :
  fst m = Ret a -> fst (try_except m h) = Ret a.
Proof. destruct m as [[x|e] t]; simpl; intros H; inversion H; reflexivity. Qed.

Lemma snd_try_ret (m : M A) h a :
  fst m = Ret a -> snd (try_except m h) = snd m.
Proof. destruct m as [[x|e] t]; simpl; intros H; inversion H; reflexivity. Qed.

End MonadFacts.

Lemma Qltb_spec a b : Qltb a b = true <-> a < b.
Proof.
  unfold Qltb. rewrite negb_true_iff. split; intros H.
  - apply Qnot_le_lt. intros H'. apply Qle_bool_iff in H'. congruence.
  - destruct (Qle_bool b a) eqn:E; [|reflexivity].
    apply Qle_bool_iff in E. apply Qle_not_lt in E. contradiction.
Qed.

Lemma Qltb_false a b : Qltb a b = false -> b <= a.
Proof. intros H. apply Qnot_lt_le. intros H'. apply Qltb_spec in H'. congruence. Qed.

Lemma Qltb_compat a a' b b' : a == a' -> b == b' -> Qltb a b = Qltb a' b'.
Proof.
  intros Ha Hb. unfold Qltb. f_equal.
  apply Bool.eq_iff_eq_true. rewrite !Qle_bool_iff, Ha, Hb. reflexivity.
Qed.

(** ** Lemmas on the summary *)

Lemma type_distribution_fold (l : list ClauseAnalysis) (m : gmap string nat) t :
  fold_left type_distribution_step l m !! t =
  match m !! t with
  | Some k => Some (k + count_type t l)%nat
  | None => if (count_type t l =? 0)%nat then None else Some (count_type t l)
  end.
Proof.
  revert m. induction l as [|a l IH]; intros m; simpl.
  - destruct (m !! t); [rewrite Nat.add_0_r|]; reflexivity.
  - rewrite IH. unfold type_distribution_step, count_type. simpl.
    destruct (String.eqb (clause_type a) t) eqn:E.
    + apply String.eqb_eq in E. subst t. rewrite lookup_insert_eq.
      destruct (m !! clause_type a) as [k|]; simpl; f_equal; lia.
    + apply String.eqb_neq in E. rewrite lookup_insert_ne by exact E. reflexivity.
Qed.

Lemma count_low_confidence_filter thr l :
  count_low_confidence thr l
  = length (List.filter (fun a => Qltb (confidence_score a) thr) l).
Proof.
  unfold count_low_confidence.
  assert (H : forall n, fold_left (fun n a => if Qltb (confidence_score a) thr
                                                then S n else n) l n
            = (n + length (List.filter (fun a => Qltb (confidence_score a) thr) l))%nat).
  { induction l as [|a l IH]; intros n; simpl; [lia|].
    destruct (Qltb (confidence_score a) thr); simpl; rewrite IH; lia. }
  apply H.
Qed.

(** ** Lemmas on the stages of [analyze_clauses] *)

Lemma classify_each_result self cs :
  fst (classify_each self cs)
  = Ret (map (classification_of self) cs,
         length (List.filter (predict_fails self) cs)).
Proof.
  induction cs as [|c cs IH]; [reflexivity|].
  simpl. destruct (classify_each self cs) as [o t] eqn:E. simpl in IH. subst o.
  unfold call_predict, classification_of, predict_fails.
  destruct (predict (classifier self) (text c)) as [[[ct q] alts]|e]; simpl.
  - destruct (Qltb q (confidence_threshold self)); reflexivity.
  - reflexivity.
Qed.

Lemma embed_each_result self cs :
  fst (embed_each self cs)
  = Ret (map (embedding_of self) cs,
         length (List.filter (embed_fails self) cs)).
Proof.
  induction cs as [|c cs IH]; [reflexivity|].
  simpl. destruct (embed_each self cs) as [o t] eqn:E. simpl in IH. subst o.
  unfold call_generate_embedding, embedding_of, embed_fails.
  destruct (generate_embedding (embedding_generator self) (text c)); reflexivity.
Qed.

Lemma combine_results_eq cs ps es :
  combine_results cs ps es = (Ret (assemble_all cs ps es), []).
Proof.
  revert ps es. induction cs as [|c cs IH]; intros ps es; [reflexivity|].
  destruct ps as [|[[ct q] alts] ps]; [reflexivity|].
  destruct es as [|e es]; [reflexivity|].
  simpl. rewrite IH. reflexivity.
Qed.

Lemma assemble_all_length cs ps es :
  length ps = length cs -> length es = length cs ->
  length (assemble_all cs ps es) = length cs.
Proof.
  revert ps es. induction cs as [|c cs IH]; intros [|p ps] [|e es]; simpl;
    intros H1 H2; try discriminate; try reflexivity.
  f_equal. apply IH; lia.
Qed.

Lemma assemble_all_nth cs ps es i c p e :
  nth_error cs i = Some c -> nth_error ps i = Some p -> nth_error es i = Some e ->
  nth_error (assemble_all cs ps es) i = Some (assemble c p e).
Proof.
  revert ps es i. induction cs as [|c' cs IH]; intros [|p' ps] [|e' es] [|i];
    simpl; intros H1 H2 H3; try discriminate.
  - congruence.
  - apply IH; assumption.
Qed.

Lemma nth_error_some_length {X Y} (xs : list X) (ys : list Y) i x :
  length ys = length xs -> nth_error xs i = Some x -> exists y, nth_error ys i = Some y.
Proof.
  intros Hl Hx. destruct (nth_error ys i) as [y|] eqn:E; [eauto|].
  apply nth_error_None in E.
  assert (Hlt : (i < length xs)%nat) by (apply nth_error_Some; congruence). lia.
Qed.

Lemma embed_stage_result self cs bs :
  fst (embed_stage self cs bs) = Ret (embed_stage_value self cs bs).
Proof.
  unfold embed_stage, embed_stage_value, call_generate_embeddings_batch.
  destruct (generate_embeddings_batch (embedding_generator self) (map text cs) true bs)
    as [es|e]; simpl; [reflexivity|].
  pose proof (embed_each_result self cs) as H.
  destruct (embed_each self cs) as [o t]. simpl in H. subst o. reflexivity.
Qed.

Lemma analyze_clauses_steps_result self cs bs es n :
  fst (embed_stage self cs bs) = Ret (es, n) ->
  length es = length cs ->
  let out := assemble_all cs (map (classification_of self) cs) es in
  fst (analyze_clauses_steps self cs bs) = Ret out /\
  In (Info_batch_complete (length cs)
        (count_low_confidence (confidence_threshold self) out)
        (length (List.filter (predict_fails self) cs)) n)
     (snd (analyze_clauses_steps self cs bs)).
Proof.
  intros He Hl out.
  unfold analyze_clauses_steps.
  pose proof (classify_each_result self cs) as Hc.
  destruct (classify_each self cs) as [o1 t1]. simpl in Hc. subst o1.
  destruct (embed_stage self cs bs) as [o2 t2]. simpl in He. subst o2.
  simpl. rewrite combine_results_eq. simpl.
  assert (Hlen : length out = length cs).
  { apply assemble_all_length; [apply length_map | exact Hl]. }
  fold out. rewrite Hlen. split; [reflexivity|].
  rewrite !in_app_iff. simpl. auto.
Qed.

(** The batch result for a non-empty list, when the batched embedding call,
    if it answers, answers with one entry per text. *)
Lemma analyze_clauses_nonempty_result self cs bs :
  cs <> [] ->
  (forall es, generate_embeddings_batch (embedding_generator self) (map text cs) true bs
              = Ret es -> length es = length cs) ->
  let ev := embed_stage_value self cs bs in
  let out := assemble_all cs (map (classification_of self) cs) (fst ev) in
  length (fst ev) = length cs /\
  fst (analyze_clauses self cs bs) = Ret out /\
  In (Info_batch_complete (length cs)
        (count_low_confidence (confidence_threshold self) out)
        (length (List.filter (predict_fails self) cs)) (snd ev))
     (snd (analyze_clauses self cs bs)).
Proof.
  intros Hne Hal ev out.
  assert (Hl : length (fst ev) = length cs).
  { subst ev. unfold embed_stage_value.
    destruct (generate_embeddings_batch (embedding_generator self) (map text cs) true bs)
      as [es|e] eqn:Hb; simpl; [exact (Hal es eq_refl) | apply length_map]. }
  assert (Hst : fst (embed_stage self cs bs) = Ret (fst ev, snd ev)).
  { rewrite embed_stage_result, <- surjective_pairing. reflexivity. }
  destruct (analyze_clauses_steps_result self cs bs (fst ev) (snd ev) Hst Hl)
    as [H1 H2].
  split; [exact Hl|].
  unfold analyze_clauses. destruct cs as [|c0 cs0]; [congruence|].
  split.
  - apply fst_try_ret with (a := out). exact H1.
  - erewrite snd_try_ret by exact H1. exact H2.
Qed.

Lemma analyze_clause_fst self c :
  fst (analyze_clause self c) =
  match predict (classifier self) (text c) with
  | Raise e => Raise (InferenceError ("Failed to classify clause: " ++ exn_str e)
                        (clause_id c))
  | Ret p => Ret (assemble c p (embedding_of self c))
  end.
Proof.
  unfold analyze_clause, call_predict, call_generate_embedding, embedding_of.
  destruct (predict (classifier self) (text c)) as [[[ct q] alts]|e]; simpl;
    [|reflexivity].
  destruct (generate_embedding (embedding_generator self) (text c)); simpl;
    destruct (Qltb q (confidence_threshold self)); reflexivity.
Qed.

(** ** The claims *)

(** C1: for a non-empty list of clauses, when the batched embedding call
    answers with one entry per text, [analyze_clauses] returns (raising
    nothing) one record per clause, in order: the i-th record carries the
    id and the text of the i-th clause. *)
Theorem analyze_clauses_aligned (self : NLPAnalyzer) (clauses : list Clause)
    (batch_size : Z)
    (Hne : clauses <> [])
    (Haligned : forall ts use_cache bs es,
       generate_embeddings_batch (embedding_generator self) ts use_cache bs = Ret es ->
       length es = length ts) :
  exists out,
    fst (analyze_clauses self clauses batch_size) = Ret out /\
    length out = length clauses /\
    forall i c, nth_error clauses i = Some c ->
      exists a, nth_error out i = Some a /\
        ca_clause_id a = clause_id c /\ clause_text a = text c.
Proof.
  destruct (analyze_clauses_nonempty_result self clauses batch_size Hne)
    as (Hl & Hout & _).
  { intros es Hb. rewrite (Haligned _ _ _ _ Hb). apply length_map. }
  set (es := fst (embed_stage_value self clauses batch_size)) in *.
  eexists. split; [exact Hout|]. split.
  - apply assemble_all_length; [apply length_map | exact Hl].
  - intros i c Hc.
    destruct (nth_error_some_length clauses es i c Hl Hc) as [e He].
    exists (assemble c (classification_of self c) e). split.
    + apply assemble_all_nth; [exact Hc | | exact He].
      rewrite nth_error_map, Hc. reflexivity.
    + destruct (classification_of self c) as [[ct q] alts]. simpl. auto.
Qed.

(** C3: [_create_fallback_analysis] always returns, raising nothing and
    calling no collaborator, the record with type "Other", confidence 0.0,
    no embedding and alternatives [("Other", 0.0)], and the id and text of
    the clause, whatever the error message. *)
Theorem create_fallback_analysis_spec (c : Clause) (error_msg : string) :
  exists a, create_fallback_analysis c error_msg = (Ret a, []) /\
    ca_clause_id a = clause_id c /\ clause_text a = text c /\
    clause_type a = "Other"%string /\ confidence_score a = 0 /\
    embeddings a = None /\ alternative_types a = [("Other"%string, 0)].
Proof. eexists. split; [reflexivity|]. simpl. repeat split. Qed.

(** C4: when the batched embedding call answers with one entry per clause,
    the record of a clause whose classification raised has type "Other",
    confidence 0.5 and alternatives [("Other", 0.5)]; the record of any
    other clause carries the classifier's answer unchanged; and the
    classification-error counter (reported in the closing log line of the
    batch) is the number of clauses whose classification raised. *)
Theorem analyze_clauses_classification_isolation (self : NLPAnalyzer)
    (clauses : list Clause) (batch_size : Z) (embs : list (option vector))
    (Hbatch : generate_embeddings_batch (embedding_generator self)
                (map text clauses) true batch_size = Ret embs)
    (Hlen : length embs = length clauses) :
  exists out,
    fst (analyze_clauses self clauses batch_size) = Ret out /\
    length out = length clauses /\
    (forall i c, nth_error clauses i = Some c ->
      exists a, nth_error out i = Some a /\
        match predict (classifier self) (text c) with
        | Raise _ => clause_type a = "Other"%string /\ confidence_score a = 1#2 /\
                     alternative_types a = [("Other"%string, 1#2)]
        | Ret (ct, q, alts) => clause_type a = ct /\ confidence_score a = q /\
                               alternative_types a = alts
        end) /\
    (clauses <> [] ->
     exists low, In (Info_batch_complete (length clauses) low
                       (length (List.filter (predict_fails self) clauses)) 0)
                    (snd (analyze_clauses self clauses batch_size))).
Proof.
  destruct clauses as [|c0 cs0].
  - destruct embs; [|discriminate]. exists []. split; [reflexivity|].
    split; [reflexivity|]. split; [intros [|i] c Hc; discriminate|].
    intros H; congruence.
  - set (cs := c0 :: cs0) in *.
    assert (Hne : cs <> []) by discriminate.
    destruct (analyze_clauses_nonempty_result self cs batch_size Hne)
      as (Hl & Hout & Hlog).
    { intros es Hb. rewrite Hbatch in Hb. inversion Hb; subst. exact Hlen. }
    assert (Hev : embed_stage_value self cs batch_size = (embs, 0%nat)).
    { unfold embed_stage_value. rewrite Hbatch. reflexivity. }
    rewrite Hev in Hout, Hlog. cbn [fst snd] in Hout, Hlog.
    eexists. split; [exact Hout|]. split.
    + apply assemble_all_length; [apply length_map | exact Hlen].
    + split.
      * intros i c Hc.
        destruct (nth_error_some_length cs embs i c Hlen Hc) as [e He].
        exists (assemble c (classification_of self c) e). split.
        -- apply assemble_all_nth; [exact Hc | | exact He].
           rewrite nth_error_map, Hc. reflexivity.
        -- unfold classification_of.
           destruct (predict (classifier self) (text c)) as [[[ct q] alts]|e'];
             simpl; auto.
      * intros _. eexists. exact Hlog.
Qed.


(** C2: [analyze_clause] raises exactly when the classifier's [predict]
    raises, and what it raises is then an [InferenceError] carrying the
    clause id (no record is returned); when [predict] answers, every later
    fault (an embedding call raising anything, an [InferenceError]
    included) is absorbed and a record is returned. *)
Theorem analyze_clause_raises_iff_predict_raises (self : NLPAnalyzer) (c : Clause) :
  (forall e, fst (analyze_clause self c) = Raise e ->
     exists msg, e = InferenceError msg (clause_id c)) /\
  ((exists e, fst (analyze_clause self c) = Raise e) <->
   (exists e, predict (classifier self) (text c) = Raise e)) /\
  ((exists a, fst (analyze_clause self c) = Ret a) <->
   (exists p, predict (classifier self) (text c) = Ret p)).
Proof.
  rewrite analyze_clause_fst.
  destruct (predict (classifier self) (text c)) as [p|e].
  - split; [intros e H; discriminate|].
    split; split; intros [x H]; try discriminate; eauto.
  - split; [intros e' H; inversion H; eauto|].
    split; split; intros [x H]; try discriminate; eauto.
Qed.

(** C5: when [predict] answers [(clause_type, confidence, alternatives)],
    [analyze_clause] returns the record with the clause's id and text,
    exactly these three values (the alternatives in the classifier's
    order), and the embedding generator's vector, or no embedding when that
    call raised. *)
Theorem analyze_clause_success (self : NLPAnalyzer) (c : Clause)
    (ctype : string) (conf : Q) (alts : list (string * Q))
    (Hpred : predict (classifier self) (text c) = Ret (ctype, conf, alts)) :
  fst (analyze_clause self c) =
  Ret (mkClauseAnalysis (clause_id c) (text c) ctype conf
         (match generate_embedding (embedding_generator self) (text c) with
          | Ret v => Some v
          | Raise _ => None
          end)
         alts).
Proof. rewrite analyze_clause_fst, Hpred. reflexivity. Qed.

(** C9: on the empty list, [analyze_clauses] returns the empty list and
    produces no event: neither collaborator is called. *)
Theorem analyze_clauses_empty (self : NLPAnalyzer) (batch_size : Z) :
  analyze_clauses self [] batch_size = (Ret [], []).
Proof. reflexivity. Qed.

(** C10: the outcome of [analyze_clause] does not depend on the threshold:
    only the log trace does. *)
Theorem analyze_clause_threshold_independent (self : NLPAnalyzer) (c : Clause)
    (thr1 thr2 : Q) :
  fst (analyze_clause (with_threshold self thr1) c)
  = fst (analyze_clause (with_threshold self thr2) c).
Proof. rewrite !analyze_clause_fst. reflexivity. Qed.

(** C6: [set_confidence_threshold] raises (a [ValueError], the spec's
    InvalidConfiguration) exactly when the value lies outside [0, 1], and
    then leaves the analyzer unchanged; otherwise it returns and the
    analyzer's threshold, read by every later operation, is the new value.
    In particular -0.1 and 1.1 are refused and 0.0 and 1.0 are accepted. *)
Theorem set_confidence_threshold_spec (self : NLPAnalyzer) (v : Q) :
  ((exists msg, fst (set_confidence_threshold self v) = Raise (ValueError msg))
   <-> (v < 0 \/ 1 < v)) /\
  (forall e, fst (set_confidence_threshold self v) = Raise e ->
     snd (set_confidence_threshold self v) = self) /\
  (fst (set_confidence_threshold self v) = Ret tt ->
     snd (set_confidence_threshold self v) = with_threshold self v /\
     confidence_threshold (snd (set_confidence_threshold self v)) = v) /\
  (exists m, fst (set_confidence_threshold self (-1#10)) = Raise (ValueError m)) /\
  (exists m, fst (set_confidence_threshold self (11#10)) = Raise (ValueError m)) /\
  fst (set_confidence_threshold self 0) = Ret tt /\
  fst (set_confidence_threshold self 1) = Ret tt.
Proof.
  assert (Hout : (exists msg, fst (set_confidence_threshold self v)
                              = Raise (ValueError msg)) <-> (v < 0 \/ 1 < v)).
  { unfold set_confidence_threshold.
    destruct (Qle_bool 0 v) eqn:E0, (Qle_bool v 1) eqn:E1; simpl;
      try apply Qle_bool_iff in E0; try apply Qle_bool_iff in E1.
    - split; [intros [m H]; discriminate|].
      intros [H|H]; [apply Qle_not_lt in E0 | apply Qle_not_lt in E1]; contradiction.
    - split; [intros _; right|eauto].
      apply Qnot_le_lt. intros H. apply Qle_bool_iff in H. congruence.
    - split; [intros _; left|eauto].
      apply Qnot_le_lt. intros H. apply Qle_bool_iff in H. congruence.
    - split; [intros _; left|eauto].
      apply Qnot_le_lt. intros H. apply Qle_bool_iff in H. congruence. }
  split; [exact Hout|].
  split.
  { intros e. unfold set_confidence_threshold.
    destruct (negb (Qle_bool 0 v && Qle_bool v 1)); simpl;
      [reflexivity | discriminate]. }
  split.
  { unfold set_confidence_threshold.
    destruct (negb (Qle_bool 0 v && Qle_bool v 1)); simpl;
      [discriminate | auto]. }
  repeat split; eexists; reflexivity.
Qed.

(** C7: [get_low_confidence_clauses] returns exactly the records whose
    confidence is strictly below the current threshold, in their original
    relative order: an order-preserving sublist of the input, all below the
    threshold, whose complement in the input has none below it. With
    threshold 0.75 and confidences 0.9, 0.5, 0.8, 0.3 it returns the 0.5
    and 0.3 records, in that order. *)
Theorem get_low_confidence_clauses_spec (self : NLPAnalyzer)
    (analyses : list ClauseAnalysis) :
  let out := get_low_confidence_clauses self analyses in
  sublist out analyses /\
  Forall (fun a => confidence_score a < confidence_threshold self) out /\
  (exists rest, analyses ≡ₚ out ++ rest /\
     Forall (fun a => ~ confidence_score a < confidence_threshold self) rest) /\
  get_low_confidence_clauses (with_threshold self (3#4)) [ex_a1; ex_a2; ex_a3; ex_a4]
  = [ex_a2; ex_a4].
Proof.
  intros out. split; [|split; [|split]]; [| | |reflexivity]; subst out;
    unfold get_low_confidence_clauses.
  - induction analyses as [|a l IH]; simpl; [constructor|].
    destruct (Qltb (confidence_score a) (confidence_threshold self));
      [apply sublist_skip | apply sublist_cons]; exact IH.
  - induction analyses as [|a l IH]; simpl; [constructor|].
    destruct (Qltb (confidence_score a) (confidence_threshold self)) eqn:E;
      [constructor; [apply Qltb_spec; exact E|] |]; exact IH.
  - induction analyses as [|a l IH]; simpl; [exists []; split; constructor|].
    destruct IH as [rest [Hp Hf]].
    destruct (Qltb (confidence_score a) (confidence_threshold self)) eqn:E.
    + exists rest. split; [apply perm_skip; exact Hp | exact Hf].
    + exists (a :: rest). split.
      * etransitivity; [apply perm_skip; exact Hp | apply Permutation_middle].
      * constructor; [|exact Hf].
        apply Qltb_false in E. apply Qle_not_lt. exact E.
Qed.

(** C8 (corrected): [get_analysis_summary] reports the number of records;
    as average, Python's [round(., 3)] of the float mean, the float sum of
    the scores divided in binary64 by their number (so the average is
    rounded from the computed float, not from the exact mean); the number
    of records strictly below the current threshold; for each clause type
    its number of occurrences (the types that do not occur are absent);
    and for the empty list the all-zero form with the empty
    distribution. *)
Theorem get_analysis_summary_spec (self : NLPAnalyzer)
    (analyses : list ClauseAnalysis) :
  let s := get_analysis_summary self analyses in
  total_clauses s = length analyses /\
  (analyses <> [] -> avg_confidence s = py_round3 (float_mean analyses)) /\
  low_confidence_count s
  = length (List.filter (fun a => Qltb (confidence_score a) (confidence_threshold self))
              analyses) /\
  (forall t, clause_type_distribution s !! t =
     if (count_type t analyses =? 0)%nat then None else Some (count_type t analyses)) /\
  (analyses = [] -> s = mkSummary 0 fzero 0 ∅).
Proof.
  intros s. subst s.
  destruct analyses as [|a l].
  - split; [reflexivity|]. split; [intros Hne; congruence|].
    split; [reflexivity|]. split; [|intros _; reflexivity].
    intros t. simpl. unfold count_type. reflexivity.
  - split; [reflexivity|]. split; [intros _; reflexivity|].
    split; [apply count_low_confidence_filter|]. split.
    + intros t. unfold get_analysis_summary. cbn [clause_type_distribution].
      unfold type_distribution_of. rewrite type_distribution_fold.
      rewrite lookup_empty. reflexivity.
    + intros H; discriminate.
Qed.

(** C8 counterexample: for the scores 0.0, 0.0, 0.01 and 0.02 (doubles)
    the exact mean of the four doubles lies just above 0.0075 and rounds
    to 0.008, while the code returns 0.007: the float sum 0.01 + 0.02
    rounds down to the double 0.03, whose quarter lies just below
    0.0075. *)
Theorem get_analysis_summary_mean_counterexample :
  round3 (mean ce_analyses) = 8 # 1000 /\
  avg_confidence (get_analysis_summary ex_analyzer ce_analyses) = float_of_Q (7 # 1000) /\
  avg_confidence (get_analysis_summary ex_analyzer ce_analyses)
  <> float_of_Q (round3 (mean ce_analyses)).
Proof.
  split; [vm_compute; reflexivity|].
  split; [vm_compute; reflexivity|].
  vm_compute. discriminate.
Qed.

(** ** Witnesses *)

Lemma analyze_clauses_aligned_witness :
  ex_clauses <> [] /\
  (forall ts use_cache bs es,
     generate_embeddings_batch (embedding_generator ex_analyzer) ts use_cache bs = Ret es ->
     length es = length ts) /\
  exists out, fst (analyze_clauses ex_analyzer ex_clauses 32) = Ret out /\
    length out = length ex_clauses.
Proof.
  assert (Hne : ex_clauses <> []) by discriminate.
  assert (Hal : forall ts use_cache bs es,
     generate_embeddings_batch (embedding_generator ex_analyzer) ts use_cache bs = Ret es ->
     length es = length ts).
  { intros ts use_cache bs es H. simpl in H. inversion H. apply length_map. }
  split; [exact Hne|]. split; [exact Hal|].
  destruct (analyze_clauses_aligned ex_analyzer ex_clauses 32 Hne Hal)
    as (out & H1 & H2 & _).
  exists out. split; assumption.
Defined.

Lemma analyze_clauses_classification_isolation_witness :
  generate_embeddings_batch (embedding_generator ex_analyzer) (map text ex_clauses) true 32
    = Ret (map (fun _ => Some ex_vector) (map text ex_clauses)) /\
  length (map (fun _ => Some ex_vector) (map text ex_clauses)) = length ex_clauses /\
  exists out, fst (analyze_clauses ex_analyzer ex_clauses 32) = Ret out /\
    length out = 5%nat.
Proof.
  split; [reflexivity|]. split; [reflexivity|].
  destruct (analyze_clauses_classification_isolation ex_analyzer ex_clauses 32
              (map (fun _ => Some ex_vector) (map text ex_clauses)) eq_refl eq_refl)
    as (out & H1 & H2 & _).
  exists out. split; assumption.
Defined.

Lemma analyze_clause_success_witness :
  predict (classifier ex_analyzer) "keep secrets" = Ret ex_prediction /\
  fst (analyze_clause ex_analyzer (mkClause "1" "keep secrets"))
  = Ret (mkClauseAnalysis "1" "keep secrets" "Confidentiality" (92#100)
           (Some ex_vector) [("Confidentiality", 92#100); ("NDA", 5#100)]).
Proof.
  split; [reflexivity|].
  exact (analyze_clause_success ex_analyzer (mkClause "1" "keep secrets")
           "Confidentiality" (92#100) [("Confidentiality", 92#100); ("NDA", 5#100)]
           eq_refl).
Defined.

(** ** Concrete runs *)

Module Tests.

Definition mk_ca (cid : string) (conf : Q) : ClauseAnalysis :=
  mkClauseAnalysis cid "t" "NDA" conf None [].

Definition an0 : NLPAnalyzer :=
  mkNLPAnalyzer (mkClassifier (fun _ => Raise (OtherException "x")))
    (mkEmbeddingGenerator (fun _ => Ret [1]) (fun ts _ _ => Ret (map (fun _ => None) ts)))
    (3#4).

Example low_ex :
  map ca_clause_id
    (get_low_confidence_clauses an0
       [mk_ca "a" (9#10); mk_ca "b" (5#10); mk_ca "c" (8#10); mk_ca "d" (3#10)])
  = ["b"; "d"]%string.
Proof. reflexivity. Qed.

(** Binary64 values, as Python's [math.frexp] gives them. *)
Example float_ex1 : float_of_Q (1 # 10) = SpecFloat.S754_finite false 7205759403792794 (-56).
Proof. vm_compute. reflexivity. Qed.
Example float_ex2 : float_of_Q (3 # 100) = SpecFloat.S754_finite false 8646911284551352 (-58).
Proof. vm_compute. reflexivity. Qed.
Example float_ex3 : float_of_Q (1 # 3) = SpecFloat.S754_finite false 6004799503160661 (-54).
Proof. vm_compute. reflexivity. Qed.
Example float_ex4 : float_of_Q (1 # Pos.pow 2 1074) = SpecFloat.S754_finite false 1 (-1074).
Proof. vm_compute. reflexivity. Qed.
Example float_ex5 : float_of_Q (1 # Pos.pow 2 1076) = fzero.
Proof. vm_compute. reflexivity. Qed.
Example float_ex6 : float_of_Q (inject_Z (2 ^ 1024)) = SpecFloat.S754_infinity false.
Proof. vm_compute. reflexivity. Qed.
Example float_ex7 :
  float_value (float_of_Q (1 # 100)) = 5764607523034235 # Pos.pow 2 59.
Proof. vm_compute. reflexivity. Qed.

(** [0.01 + 0.02 == 0.03] and [0.9 + 0.5 + 0.8 == 2.2] in binary64;
    [0.1 + 0.2] is not [0.3]. *)
Example fadd_ex1 : fadd (float_of_Q (1 # 100)) (float_of_Q (2 # 100)) = float_of_Q (3 # 100).
Proof. vm_compute. reflexivity. Qed.
Example fadd_ex2 :
  py_fsum [float_of_Q (9 # 10); float_of_Q (5 # 10); float_of_Q (8 # 10)] = float_of_Q (22 # 10).
Proof. vm_compute. reflexivity. Qed.
Example fadd_ex3 : fadd (float_of_Q (1 # 10)) (float_of_Q (2 # 10)) <> float_of_Q (3 # 10).
Proof. vm_compute. discriminate. Qed.

(** [round(1.0005, 3) == 1.0], [round(0.0015, 3) == 0.002],
    [round(2.6755, 3) == 2.675] and [round(-0.0001, 3) == -0.0]. *)
Example py_round3_ex1 : py_round3 (float_of_Q (10005 # 10000)) = float_of_Q 1.
Proof. vm_compute. reflexivity. Qed.
Example py_round3_ex2 : py_round3 (float_of_Q (15 # 10000)) = float_of_Q (2 # 1000).
Proof. vm_compute. reflexivity. Qed.
Example py_round3_ex3 : py_round3 (float_of_Q (26755 # 10000)) = float_of_Q (2675 # 1000).
Proof. vm_compute. reflexivity. Qed.
Example py_round3_ex4 : py_round3 (float_of_Q (-1 # 10000)) = SpecFloat.S754_zero true.
Proof. vm_compute. reflexivity. Qed.

Example round_ex1 : round3 (12345 # 10000) = 1234 # 1000.
Proof. reflexivity. Qed.
Example round_ex2 : round3 (12355 # 10000) = 1236 # 1000.
Proof. reflexivity. Qed.
Example round_ex3 : round3 (2 # 3) = 667 # 1000.
Proof. reflexivity. Qed.

Example batch_ex :
  fst (analyze_clauses an0 [mkClause "1" "x"; mkClause "2" "y"] 32)
  = Ret [mkClauseAnalysis "1" "x" "Other" (1#2) None [("Other", 1#2)];
         mkClauseAnalysis "2" "y" "Other" (1#2) None [("Other", 1#2)]].
Proof. reflexivity. Qed.

Example single_ex :
  fst (analyze_clause an0 (mkClause "1" "x"))
  = Raise (InferenceError "Failed to classify clause: x" "1").
Proof. reflexivity. Qed.

(** The 1-of-5 scenario: the closing log line reports 5 records, 1 below
    the threshold, 1 classification error and 0 embedding errors. *)
Example batch_scenario_log :
  List.last (snd (analyze_clauses ex_analyzer ex_clauses 32)) (Call_predict "")
  = Info_batch_complete 5 1 1 0.
Proof. reflexivity. Qed.

Example summary_ex :
  let s := get_analysis_summary an0
             [mk_ca "a" (9#10); mk_ca "b" (5#10); mk_ca "c" (8#10)] in
  total_clauses s = 3%nat /\ avg_confidence s = float_of_Q (733 # 1000) /\
  low_confidence_count s = 1%nat /\ clause_type_distribution s !! "NDA"%string = Some 3%nat.
Proof. vm_compute. repeat split. Qed.

End Tests.

(** ** Further properties of the code *)

Lemma filter_partition {X} (p : X -> bool) (l : list X) :
  sublist (List.filter p l) l /\
  Forall (fun x => p x = true) (List.filter p l) /\
  exists rest, l ≡ₚ List.filter p l ++ rest /\ Forall (fun x => p x = false) rest.
Proof.
  induction l as [|x l (Hs & Hf & rest & Hp & Hr)]; simpl.
  - split; [constructor|]. split; [constructor|]. exists []. split; constructor.
  - destruct (p x) eqn:E.
    + split; [apply sublist_skip; exact Hs|]. split; [constructor; assumption|].
      exists rest. split; [apply perm_skip; exact Hp | exact Hr].
    + split; [apply sublist_cons; exact Hs|]. split; [exact Hf|].
      exists (x :: rest). split; [|constructor; assumption].
      etransitivity; [apply perm_skip; exact Hp | apply Permutation_middle].
Qed.

(** [get_clauses_by_type] returns, in their original order, exactly the
    records of the given type: an order-preserving sublist of the input,
    all of that type, whose complement in the input has none of it. *)
Theorem get_clauses_by_type_spec (self : NLPAnalyzer)
    (analyses : list ClauseAnalysis) (t : string) :
  let out := get_clauses_by_type self analyses t in
  sublist out analyses /\
  Forall (fun a => clause_type a = t) out /\
  (exists rest, analyses ≡ₚ out ++ rest /\ Forall (fun a => clause_type a <> t) rest).
Proof.
  destruct (filter_partition (fun a => String.eqb (clause_type a) t) analyses)
    as (Hs & Hf & rest & Hp & Hr).
  split; [exact Hs|]. split.
  - eapply Forall_impl; [exact Hf|]. intros a H. apply String.eqb_eq. exact H.
  - exists rest. split; [exact Hp|].
    eapply Forall_impl; [exact Hr|]. intros a H. apply String.eqb_neq. exact H.
Qed.

(** The summary's distribution agrees with [get_clauses_by_type]: a type
    maps to the number of records [get_clauses_by_type] returns for it, and
    is absent exactly when that list is empty. *)
Theorem summary_distribution_by_type (self : NLPAnalyzer)
    (analyses : list ClauseAnalysis) (t : string) :
  clause_type_distribution (get_analysis_summary self analyses) !! t =
  match get_clauses_by_type self analyses t with
  | [] => None
  | l => Some (length l)
  end.
Proof.
  destruct analyses as [|a l]; [reflexivity|].
  unfold get_analysis_summary. cbn [clause_type_distribution].
  unfold type_distribution_of. rewrite type_distribution_fold, lookup_empty.
  unfold count_type, get_clauses_by_type.
  destruct (List.filter (fun a0 => String.eqb (clause_type a0) t) (a :: l)); reflexivity.
Qed.

Lemma dist_total_step (m : gmap string nat) (a : ClauseAnalysis) :
  dist_total (type_distribution_step m a) = S (dist_total m).
Proof.
  unfold dist_total, type_distribution_step.
  assert (Hc : forall (m' : gmap string nat) (j1 j2 : string) (z1 z2 y : nat),
             (z1 + (z2 + y) = z2 + (z1 + y))%nat) by (intros; lia).
  destruct (m !! clause_type a) as [v|] eqn:E; simpl.
  - rewrite <- insert_delete_eq.
    rewrite map_fold_insert_L by (auto || apply lookup_delete_eq).
    rewrite (map_fold_delete_L _ _ (clause_type a) v m) by auto. lia.
  - rewrite map_fold_insert_L by auto. lia.
Qed.

(** The counts of the summary's distribution add up to its total. *)
Theorem summary_distribution_total (self : NLPAnalyzer)
    (analyses : list ClauseAnalysis) :
  dist_total (clause_type_distribution (get_analysis_summary self analyses))
  = total_clauses (get_analysis_summary self analyses).
Proof.
  assert (H : forall l m, dist_total (fold_left type_distribution_step l m)
                          = (length l + dist_total m)%nat).
  { induction l as [|a l IH]; intros m; simpl; [reflexivity|].
    rewrite IH, dist_total_step. lia. }
  destruct analyses as [|a l]; [reflexivity|].
  unfold get_analysis_summary. cbn [clause_type_distribution total_clauses].
  unfold type_distribution_of. rewrite H.
  unfold dist_total. rewrite map_fold_empty. lia.
Qed.

(** Raising the threshold never removes a record from the low-confidence
    list: the list for the lower threshold is an order-preserving sublist
    of the list for the higher one. *)
Theorem get_low_confidence_clauses_monotone (self : NLPAnalyzer)
    (thr1 thr2 : Q) (analyses : list ClauseAnalysis) (Hle : thr1 <= thr2) :
  sublist (get_low_confidence_clauses (with_threshold self thr1) analyses)
          (get_low_confidence_clauses (with_threshold self thr2) analyses).
Proof.
  unfold get_low_confidence_clauses. simpl.
  induction analyses as [|a l IH]; simpl; [constructor|].
  destruct (Qltb (confidence_score a) thr1) eqn:E1,
           (Qltb (confidence_score a) thr2) eqn:E2.
  - apply sublist_skip. exact IH.
  - exfalso. apply Qltb_spec in E1. apply Qltb_false in E2. lra.
  - apply sublist_cons. exact IH.
  - exact IH.
Qed.

Lemma get_low_confidence_clauses_monotone_witness :
  (1#2) <= 3#4 /\
  get_low_confidence_clauses (with_threshold ex_analyzer (1#2)) [ex_a1; ex_a2; ex_a3; ex_a4]
  = [ex_a4] /\
  sublist (get_low_confidence_clauses (with_threshold ex_analyzer (1#2))
             [ex_a1; ex_a2; ex_a3; ex_a4])
          (get_low_confidence_clauses (with_threshold ex_analyzer (3#4))
             [ex_a1; ex_a2; ex_a3; ex_a4]).
Proof.
  assert (H : (1#2) <= 3#4) by (unfold Qle; simpl; lia).
  split; [exact H|]. split; [reflexivity|].
  exact (get_low_confidence_clauses_monotone ex_analyzer (1#2) (3#4) _ H).
Defined.

Lemma analyze_clauses_steps_eq self cs bs :
  let ev := embed_stage_value self cs bs in
  let out := assemble_all cs (map (classification_of self) cs) (fst ev) in
  analyze_clauses_steps self cs bs =
  (Ret out,
   snd (classify_each self cs) ++ snd (embed_stage self cs bs) ++
   [Info_batch_complete (length out)
      (count_low_confidence (confidence_threshold self) out)
      (length (List.filter (predict_fails self) cs)) (snd ev)]).
Proof.
  intros ev out. unfold analyze_clauses_steps.
  pose proof (classify_each_result self cs) as Hc.
  pose proof (embed_stage_result self cs bs) as He.
  destruct (classify_each self cs) as [o1 t1]. simpl in Hc. subst o1.
  destruct (embed_stage self cs bs) as [o2 t2]. simpl in He. subst o2.
  fold ev. destruct ev as [es n] eqn:Eev.
  simpl. rewrite combine_results_eq. simpl.
  fold out. rewrite ?app_nil_r. reflexivity.
Qed.

Lemma classify_each_trace self cs :
  snd (classify_each self cs) = flat_map (classify_events self) cs.
Proof.
  induction cs as [|c cs IH]; [reflexivity|].
  simpl. pose proof (classify_each_result self cs) as Hc.
  destruct (classify_each self cs) as [o t]. simpl in Hc, IH. subst o t.
  unfold call_predict, classify_events.
  destruct (predict (classifier self) (text c)) as [[[ct q] alts]|e]; simpl.
  - destruct (Qltb q (confidence_threshold self)); simpl;
      rewrite !app_nil_r; reflexivity.
  - rewrite !app_nil_r. reflexivity.
Qed.

Lemma embed_each_trace self cs :
  snd (embed_each self cs) = map (fun c => Call_generate_embedding (text c)) cs.
Proof.
  induction cs as [|c cs IH]; [reflexivity|].
  simpl. pose proof (embed_each_result self cs) as Hc.
  destruct (embed_each self cs) as [o t]. simpl in Hc, IH. subst o t.
  unfold call_generate_embedding.
  destruct (generate_embedding (embedding_generator self) (text c)); simpl;
    rewrite !app_nil_r; reflexivity.
Qed.

Lemma embed_stage_trace self cs bs :
  snd (embed_stage self cs bs) =
  Call_generate_embeddings_batch (map text cs) true bs ::
  match generate_embeddings_batch (embedding_generator self) (map text cs) true bs with
  | Ret _ => []
  | Raise _ => map (fun c => Call_generate_embedding (text c)) cs
  end.
Proof.
  unfold embed_stage, call_generate_embeddings_batch.
  destruct (generate_embeddings_batch (embedding_generator self) (map text cs) true bs);
    simpl; [reflexivity|].
  pose proof (embed_each_trace self cs) as H.
  destruct (embed_each self cs) as [o t]. simpl in *. subst t. reflexivity.
Qed.

Lemma analyze_clauses_fst_nonempty self cs bs :
  cs <> [] ->
  fst (analyze_clauses self cs bs)
  = Ret (assemble_all cs (map (classification_of self) cs)
           (fst (embed_stage_value self cs bs))).
Proof.
  intros Hne. unfold analyze_clauses. destruct cs as [|c0 cs0]; [congruence|].
  apply fst_try_ret. rewrite analyze_clauses_steps_eq. reflexivity.
Qed.

Lemma assemble_all_length_min cs ps es :
  length ps = length cs ->
  length (assemble_all cs ps es) = Nat.min (length cs) (length es).
Proof.
  revert ps es. induction cs as [|c cs IH]; intros [|p ps] [|e es]; simpl;
    intros H; try discriminate; try reflexivity.
  f_equal. apply IH. lia.
Qed.

(** The events of a non-empty batch, in order: for each clause, one
    [predict] call, followed by a low-confidence warning when it answered
    below the threshold; then exactly one batched embedding call; then one
    [generate_embedding] call per clause, only when the batched call
    raised; and last the closing summary line. *)
Theorem analyze_clauses_trace (self : NLPAnalyzer) (clauses : list Clause)
    (batch_size : Z) (Hne : clauses <> []) :
  let ev := embed_stage_value self clauses batch_size in
  let out := assemble_all clauses (map (classification_of self) clauses) (fst ev) in
  snd (analyze_clauses self clauses batch_size) =
  flat_map (classify_events self) clauses ++
  Call_generate_embeddings_batch (map text clauses) true batch_size ::
  match generate_embeddings_batch (embedding_generator self) (map text clauses)
          true batch_size with
  | Ret _ => []
  | Raise _ => map (fun c => Call_generate_embedding (text c)) clauses
  end ++
  [Info_batch_complete (length out)
     (count_low_confidence (confidence_threshold self) out)
     (length (List.filter (predict_fails self) clauses)) (snd ev)].
Proof.
  intros ev out. unfold analyze_clauses.
  destruct clauses as [|c0 cs0]; [congruence|].
  erewrite snd_try_ret; [|rewrite analyze_clauses_steps_eq; reflexivity].
  rewrite analyze_clauses_steps_eq. cbn [snd].
  rewrite classify_each_trace, embed_stage_trace. reflexivity.
Qed.

Lemma analyze_clauses_trace_witness :
  ex_clauses <> [] /\
  snd (analyze_clauses ex_analyzer ex_clauses 32) =
  flat_map (classify_events ex_analyzer) ex_clauses ++
  Call_generate_embeddings_batch (map text ex_clauses) true 32 ::
  match generate_embeddings_batch (embedding_generator ex_analyzer) (map text ex_clauses)
          true 32 with
  | Ret _ => []
  | Raise _ => map (fun c => Call_generate_embedding (text c)) ex_clauses
  end ++
  [Info_batch_complete
     (length (assemble_all ex_clauses (map (classification_of ex_analyzer) ex_clauses)
                (fst (embed_stage_value ex_analyzer ex_clauses 32))))
     (count_low_confidence (confidence_threshold ex_analyzer)
        (assemble_all ex_clauses (map (classification_of ex_analyzer) ex_clauses)
           (fst (embed_stage_value ex_analyzer ex_clauses 32))))
     (length (List.filter (predict_fails ex_analyzer) ex_clauses))
     (snd (embed_stage_value ex_analyzer ex_clauses 32))].
Proof.
  assert (Hne : ex_clauses <> []) by discriminate.
  split; [exact Hne|]. exact (analyze_clauses_trace ex_analyzer ex_clauses 32 Hne).
Defined.

(** When the batched embedding call raises, the batch falls back to one
    [generate_embedding] call per clause: it still returns one record per
    clause, the i-th record carries the i-th clause's own embedding result
    (absent when that call raised), and it is the very record
    [analyze_clause] returns for that clause whenever the classifier
    answers; the closing log line counts as embedding errors exactly the
    clauses whose [generate_embedding] call raised. *)
Theorem analyze_clauses_batch_embedding_fallback (self : NLPAnalyzer)
    (clauses : list Clause) (batch_size : Z) (e : exn)
    (Hne : clauses <> [])
    (Hraise : generate_embeddings_batch (embedding_generator self)
                (map text clauses) true batch_size = Raise e) :
  exists out,
    fst (analyze_clauses self clauses batch_size) = Ret out /\
    length out = length clauses /\
    (forall i c, nth_error clauses i = Some c ->
       exists a, nth_error out i = Some a /\
         embeddings a = match generate_embedding (embedding_generator self) (text c) with
                        | Ret v => Some v
                        | Raise _ => None
                        end /\
         (forall p, predict (classifier self) (text c) = Ret p ->
            fst (analyze_clause self c) = Ret a)) /\
    (exists low, In (Info_batch_complete (length clauses) low
                       (length (List.filter (predict_fails self) clauses))
                       (length (List.filter (embed_fails self) clauses)))
                    (snd (analyze_clauses self clauses batch_size))).
Proof.
  assert (Hev : embed_stage_value self clauses batch_size
                = (map (embedding_of self) clauses,
                   length (List.filter (embed_fails self) clauses))).
  { unfold embed_stage_value. rewrite Hraise. reflexivity. }
  destruct (analyze_clauses_nonempty_result self clauses batch_size Hne)
    as (Hl & Hout & Hlog).
  { intros es Hb. rewrite Hraise in Hb. discriminate. }
  rewrite Hev in Hout, Hlog, Hl. cbn [fst snd] in Hout, Hlog, Hl.
  eexists. split; [exact Hout|]. split.
  - apply assemble_all_length; apply length_map.
  - split; [|eexists; exact Hlog].
    intros i c Hc.
    exists (assemble c (classification_of self c) (embedding_of self c)). split.
    + apply assemble_all_nth; [exact Hc | |]; rewrite nth_error_map, Hc; reflexivity.
    + split.
      * destruct (classification_of self c) as [[ct q] alts]. reflexivity.
      * intros p Hp. rewrite analyze_clause_fst, Hp.
        unfold classification_of. rewrite Hp. reflexivity.
Qed.

Lemma analyze_clauses_batch_embedding_fallback_witness :
  let an := mkNLPAnalyzer (classifier ex_analyzer)
              (mkEmbeddingGenerator
                 (fun t => if String.eqb t "terminate"
                           then Raise (OtherException "timeout") else Ret ex_vector)
                 (fun _ _ _ => Raise (OtherException "out of memory")))
              (3#4) in
  ex_clauses <> [] /\
  generate_embeddings_batch (embedding_generator an) (map text ex_clauses) true 32
    = Raise (OtherException "out of memory") /\
  exists out, fst (analyze_clauses an ex_clauses 32) = Ret out /\
    length out = length ex_clauses.
Proof.
  intros an.
  assert (Hne : ex_clauses <> []) by discriminate.
  split; [exact Hne|]. split; [reflexivity|].
  destruct (analyze_clauses_batch_embedding_fallback an ex_clauses 32
              (OtherException "out of memory") Hne eq_refl) as (out & H1 & H2 & _).
  exists out. split; assumption.
Defined.

(** When the batched embedding call answers with fewer entries than there
    are clauses, [zip] stops at the shorter list: the batch silently
    returns only as many records as there are embeddings, the i-th record
    built from the i-th clause, its classification and the i-th entry. *)
Theorem analyze_clauses_zip_truncates (self : NLPAnalyzer) (clauses : list Clause)
    (batch_size : Z) (embs : list (option vector))
    (Hne : clauses <> [])
    (Hbatch : generate_embeddings_batch (embedding_generator self)
                (map text clauses) true batch_size = Ret embs) :
  exists out,
    fst (analyze_clauses self clauses batch_size) = Ret out /\
    length out = Nat.min (length clauses) (length embs) /\
    (forall i c e, nth_error clauses i = Some c -> nth_error embs i = Some e ->
       nth_error out i = Some (assemble c (classification_of self c) e)).
Proof.
  rewrite analyze_clauses_fst_nonempty by exact Hne.
  unfold embed_stage_value. rewrite Hbatch. cbn [fst].
  eexists. split; [reflexivity|]. split.
  - apply assemble_all_length_min, length_map.
  - intros i c e Hc He. apply assemble_all_nth; [exact Hc | | exact He].
    rewrite nth_error_map, Hc. reflexivity.
Qed.

Lemma analyze_clauses_zip_truncates_witness :
  let an := mkNLPAnalyzer (classifier ex_analyzer)
              (mkEmbeddingGenerator (fun _ => Ret ex_vector)
                 (fun _ _ _ => Ret [Some ex_vector; None]))
              (3#4) in
  ex_clauses <> [] /\
  generate_embeddings_batch (embedding_generator an) (map text ex_clauses) true 32
    = Ret [Some ex_vector; None] /\
  exists out, fst (analyze_clauses an ex_clauses 32) = Ret out /\ length out = 2%nat.
Proof.
  intros an.
  assert (Hne : ex_clauses <> []) by discriminate.
  split; [exact Hne|]. split; [reflexivity|].
  destruct (analyze_clauses_zip_truncates an ex_clauses 32 _ Hne eq_refl)
    as (out & H1 & H2 & _).
  exists out. split; [exact H1 | exact H2].
Defined.

(** The records of a batch do not depend on the threshold: only the
    warnings and the closing log line do. *)
Theorem analyze_clauses_threshold_independent (self : NLPAnalyzer)
    (clauses : list Clause) (batch_size : Z) (thr1 thr2 : Q) :
  fst (analyze_clauses (with_threshold self thr1) clauses batch_size)
  = fst (analyze_clauses (with_threshold self thr2) clauses batch_size).
Proof.
  destruct clauses as [|c cs]; [reflexivity|].
  rewrite !analyze_clauses_fst_nonempty by discriminate.
  reflexivity.
Qed.

(** The recorded events of [analyze_clause] (collaborator calls and the
    low-confidence warning; the debug and error log lines are not
    recorded): one [predict] call; when it raises, no other call and no
    warning (the embedding generator is not called); when it answers, one
    [generate_embedding] call, then a low-confidence warning exactly when
    the confidence is below the threshold. *)
Theorem analyze_clause_trace (self : NLPAnalyzer) (c : Clause) :
  snd (analyze_clause self c) =
  match predict (classifier self) (text c) with
  | Raise _ => [Call_predict (text c)]
  | Ret (_, conf, _) =>
      [Call_predict (text c); Call_generate_embedding (text c)] ++
      (if Qltb conf (confidence_threshold self)
       then [Warn_low_confidence (clause_id c) conf] else [])
  end.
Proof.
  unfold analyze_clause, call_predict, call_generate_embedding.
  destruct (predict (classifier self) (text c)) as [[[ct q] alts]|e]; simpl;
    [|reflexivity].
  destruct (generate_embedding (embedding_generator self) (text c)); simpl;
    destruct (Qltb q (confidence_threshold self)); reflexivity.
Qed.

